(** * Early-stopping triggers of [stanza/monitoring/trigger.py]

    A shallow embedding of the three stopping criteria
    ([ThresholdEarlyStopping], [PatienceEarlyStopping],
    [SlopeThresholdEarlyStopping]) and of the part of Python's object
    model that decides which [reset] a call reaches.

    Numbers.  The monitored values and the bounds are Python floats.  They
    are modelled by their exact values: a rational, one of the two
    infinities, or NaN.  Comparisons follow IEEE 754 as Python applies
    them (every comparison with NaN is false); they are exact on floats, so
    nothing is idealised there.  Arithmetic only happens inside
    [np.linalg.lstsq], which runs in float64 inside LAPACK: what it returns
    on a regular system is rounded in a way the source does not fix, and is
    a parameter of the development.  Python integers ([patience], the
    counters, the window width) are unbounded and modelled in [Z] and
    [nat].

    Effects.  A method is a function from the object before the call to the
    object after it and an outcome: a returned value or a raised exception.
    A raised exception keeps the writes made before it, as in Python. *)

From Stdlib Require Import ZArith QArith Qreduction Qfield Lqa Lia List Bool.
Import ListNotations.

Local Open Scope Z_scope.

(** ** Numbers *)

Inductive value : Type :=
| NaN
| NegInf
| Fin (q : Q)
| PosInf.

(** [float('inf')] and unary minus, as used by the default arguments. *)
Definition float_inf : value := PosInf.

Definition neg (a : value) : value :=
  match a with
  | NaN => NaN
  | NegInf => PosInf
  | Fin q => Fin (- q)%Q
  | PosInf => NegInf
  end.

Definition Qltb (p q : Q) : bool :=
  match (p ?= q)%Q with
  | Lt => true
  | _ => false
  end.

(** [a < b] on floats. *)
Definition lt (a b : value) : bool :=
  match a, b with
  | NaN, _ | _, NaN => false
  | NegInf, NegInf => false
  | NegInf, _ => true
  | Fin _, NegInf => false
  | Fin p, Fin q => Qltb p q
  | Fin _, PosInf => true
  | PosInf, _ => false
  end.

(** [a > b] on floats. *)
Definition gt (a b : value) : bool := lt b a.

(** ** Outcomes and the method monad *)

Inductive exn : Type :=
| AttributeError
| NotImplementedError
| TypeError
| IndexError
| LinAlgError.

Inductive outcome (A : Type) : Type :=
| Return (a : A)
| Raise (e : exn).

Arguments Return {A} a.
Arguments Raise {A} e.

(** A method body over an object of type [S]. *)
Definition method (S A : Type) : Type := S -> S * outcome A.

Definition ret {S A} (a : A) : method S A := fun self => (self, Return a).

Definition raise {S A} (e : exn) : method S A := fun self => (self, Raise e).

Definition bind {S A B} (m : method S A) (k : A -> method S B) : method S B :=
  fun self =>
    match m self with
    | (self', Return a) => k a self'
    | (self', Raise e) => (self', Raise e)
    end.

(** Read an attribute of [self]; overwrite [self] by a field update. *)
Definition attr {S A} (f : S -> A) : method S A := fun self => (self, Return (f self)).

Definition assign {S} (upd : S -> S) : method S unit := fun self => (upd self, Return tt).

(** Lift the outcome of a pure library call. *)
Definition lift {S A} (o : outcome A) : method S A := fun self => (self, o).

Declare Scope method_scope.
Delimit Scope method_scope with method.

Notation "x <- m ;; k" := (bind m (fun x => k))
  (at level 61, m at next level, right associativity) : method_scope.
Notation "m ;; k" := (bind m (fun _ => k))
  (at level 61, right associativity) : method_scope.

(** The object after a sequence of calls of one method, and the outcomes of
    the calls in order. *)
Fixpoint feed {S A V} (call : V -> method S A) (self : S) (vs : list V) : S :=
  match vs with
  | [] => self
  | v :: vs' => feed call (fst (call v self)) vs'
  end.

Fixpoint results {S A V} (call : V -> method S A) (self : S) (vs : list V)
  : list (outcome A) :=
  match vs with
  | [] => []
  | v :: vs' => snd (call v self) :: results call (fst (call v self)) vs'
  end.

(** ** The part of NumPy the module uses

    One-dimensional arrays are lists; the two-column array [A] is the list of
    its rows. *)

Module Np.

(** [np.array(range(n))] *)
Definition arange (n : nat) : list value :=
  map (fun i => Fin (inject_Z (Z.of_nat i))) (seq 0 n).

(** [np.zeros(n)], [np.ones(n)] *)
Definition zeros (n : nat) : list value := repeat (Fin 0) n.
Definition ones (n : nat) : list value := repeat (Fin 1) n.

(** [np.vstack([u, v]).T]: the rows pair the entries of [u] and [v]. *)
Definition vstack_T (u v : list value) : list (value * value) := combine u v.

(** [a.fill(c)] *)
Definition fill (a : list value) (c : value) : list value := map (fun _ => c) a.

(** The slice [a[1:]]. *)
Definition from1 (a : list value) : list value := tl a.

(** [a[:-1] = src], for [src] of the length of [a[:-1]]: every slot but
    the last is overwritten. *)
Definition assign_init (a src : list value) : list value :=
  src ++ skipn (length a - 1) a.

(** [a[-1] = v]; an empty array has no last slot. *)
Definition setitem_last (a : list value) (v : value) : outcome (list value) :=
  match a with
  | [] => Raise IndexError
  | _ :: _ => Return (removelast a ++ [v])
  end.

(** Entries of an array when all of them are finite. *)
Fixpoint finite_entries (a : list value) : option (list Q) :=
  match a with
  | [] => Some []
  | Fin q :: a' => option_map (cons q) (finite_entries a')
  | _ :: _ => None
  end.

Fixpoint finite_rows (a : list (value * value)) : option (list (Q * Q)) :=
  match a with
  | [] => Some []
  | (Fin p, Fin q) :: a' => option_map (cons (p, q)) (finite_rows a')
  | _ :: _ => None
  end.

Definition sumq {X : Type} (f : X -> Q) (l : list X) : Q :=
  fold_right (fun r acc => (f r + acc)%Q) 0%Q l.

(** The determinant of the Gram matrix [A^T A] of a two-column [A]: zero
    exactly when the columns of [A] are dependent. *)
Definition gram_det (A : list (Q * Q)) : Q :=
  (sumq (fun r => fst r * fst r) A * sumq (fun r => snd r * snd r) A
   - sumq (fun r => fst r * snd r) A * sumq (fun r => fst r * snd r) A)%Q.

(** A rank-deficient system has many least-squares solutions; [lstsq]
    returns the one of minimum norm, [G g / (tr G)^2] with [G = A^T A] and
    [g = A^T b] (zero when [A] is zero).  The criterion builds one such
    system, the single row [(0, 1)] of a window of 1, where this is
    [(0, b)] and float64 arithmetic computes it without rounding. *)
Definition lstsq_min_norm (A : list (Q * Q)) (b : list Q) : Q * Q :=
  (let g11 := sumq (fun r => fst r * fst r) A in
   let g12 := sumq (fun r => fst r * snd r) A in
   let g22 := sumq (fun r => snd r * snd r) A in
   let g1 := sumq (fun rb => fst (fst rb) * snd rb) (combine A b) in
   let g2 := sumq (fun rb => snd (fst rb) * snd rb) (combine A b) in
   let tr := g11 + g22 in
   if Qeq_bool tr 0 then (0, 0)
   else (Qred ((g11 * g1 + g12 * g2) / (tr * tr)),
         Qred ((g12 * g1 + g22 * g2) / (tr * tr))))%Q.

Section Lstsq.

(** The pair of floats [lstsq] returns on a finite system of full column
    rank: LAPACK's float64 approximation of the least-squares solution.
    Its rounding (and overflow to an infinity) is not fixed by the source;
    the development is parametric in it. *)
Variable lstsq_float64 : list (Q * Q) -> list Q -> value * value.

(** What [lstsq] does with a right-hand side or a matrix that holds an
    infinity or NaN is not fixed by its contract; the development is
    parametric in it. *)
Variable lstsq_nonfinite :
  list (value * value) -> list value -> outcome (value * value).

(** [np.linalg.lstsq(A, b)[0]] for a two-column [A], unpacked as the
    pair [(m, c)]. *)
Definition lstsq (A : list (value * value)) (b : list value)
  : outcome (value * value) :=
  if negb (length A =? length b)%nat then Raise LinAlgError
  else
    match finite_rows A, finite_entries b with
    | Some Aq, Some bq =>
        if Qeq_bool (gram_det Aq) 0
        then let '(m, c) := lstsq_min_norm Aq bq in Return (Fin m, Fin c)
        else Return (lstsq_float64 Aq bq)
    | _, _ => lstsq_nonfinite A b
    end.

End Lstsq.

End Np.

(** ** ThresholdEarlyStopping *)

Module Threshold.

Record t : Type := mk { min : value; max : value }.

(** Default arguments of [__init__]. *)
Definition default_min_threshold : value := neg float_inf.
Definition default_max_threshold : value := float_inf.

Definition init (min_threshold max_threshold : value) : t :=
  {| min := min_threshold; max := max_threshold |}.

Definition should_stop (new_value : value) : method t bool :=
  (mx <- attr max ;;
   if gt new_value mx then ret true
   else
     mn <- attr min ;;
     ret (lt new_value mn))%method.

End Threshold.

(** ** PatienceEarlyStopping *)

Module Patience.

Record t : Type := mk {
  patience : Z;
  best_so_far : value;
  time_since_best : Z
}.

Definition set_best_so_far (a : value) (self : t) : t :=
  {| patience := patience self;
     best_so_far := a;
     time_since_best := time_since_best self |}.

Definition set_time_since_best (n : Z) (self : t) : t :=
  {| patience := patience self;
     best_so_far := best_so_far self;
     time_since_best := n |}.

Definition init (patience : Z) : t :=
  {| patience := patience;
     best_so_far := neg float_inf;
     time_since_best := 0 |}.

Definition should_stop (new_value : value) : method t bool :=
  (best <- attr best_so_far ;;
   if gt new_value best then
     assign (set_best_so_far new_value) ;;
     assign (set_time_since_best 0) ;;
     ret false
   else
     n <- attr time_since_best ;;
     assign (set_time_since_best (n + 1)) ;;
     n' <- attr time_since_best ;;
     p <- attr patience ;;
     ret (n' >? p))%method.

Definition reset : method t unit :=
  (assign (set_best_so_far (neg float_inf)) ;;
   assign (set_time_since_best 0))%method.

End Patience.

(** ** SlopeThresholdEarlyStopping *)

Module Slope.

Record t : Type := mk {
  min : value;
  max : value;
  points_seen : Z;
  time : nat;
  x : list value;
  y : list value;
  A : list (value * value)
}.

Definition set_points_seen (n : Z) (self : t) : t :=
  {| min := min self; max := max self; points_seen := n; time := time self;
     x := x self; y := y self; A := A self |}.

Definition set_y (a : list value) (self : t) : t :=
  {| min := min self; max := max self; points_seen := points_seen self;
     time := time self; x := x self; y := a; A := A self |}.

(** Default arguments of [__init__]. *)
Definition default_min_thresh : value := neg float_inf.
Definition default_max_thresh : value := float_inf.
Definition default_time : nat := 5.

(** [__init__]; the width is a [nat] because [np.zeros] rejects a
    negative one. *)
Definition init (min_thresh max_thresh : value) (time : nat) : t :=
  let x := Np.arange time in
  {| min := min_thresh;
     max := max_thresh;
     points_seen := 0;
     time := time;
     x := x;
     y := Np.zeros time;
     A := Np.vstack_T x (Np.ones (length x)) |}.

Section Methods.

Variable lstsq_float64 : list (Q * Q) -> list Q -> value * value.

Variable lstsq_nonfinite :
  list (value * value) -> list value -> outcome (value * value).

Definition should_stop (new_value : value) : method t bool :=
  (y0 <- attr y ;;
   assign (set_y (Np.assign_init y0 (Np.from1 y0))) ;;
   y1 <- attr y ;;
   y2 <- lift (Np.setitem_last y1 new_value) ;;
   assign (set_y y2) ;;
   seen <- attr points_seen ;;
   w <- attr time ;;
   if seen <? Z.of_nat w - 1 then
     assign (set_points_seen (seen + 1)) ;;
     ret false
   else
     a <- attr A ;;
     b <- attr y ;;
     mc <- lift (Np.lstsq lstsq_float64 lstsq_nonfinite a b) ;;
     mn <- attr min ;;
     if lt (fst mc) mn then ret true
     else
       mx <- attr max ;;
       ret (gt (fst mc) mx))%method.

Definition reset : method t unit :=
  (assign (set_points_seen 0) ;;
   b <- attr y ;;
   assign (set_y (Np.fill b (Fin 0))))%method.

End Methods.

End Slope.

(** ** Classes, method resolution and calls

    The class statements of the module: which bases each class lists, which
    methods its body binds, and the lookup of a method along the method
    resolution order (the C3 linearisation). *)

Module Py.

Inductive class : Type :=
| Trigger
| StatefulTriggerMixin
| EarlyStopping
| ThresholdEarlyStopping
| PatienceEarlyStopping
| SlopeThresholdEarlyStopping.

Definition class_eqb (c d : class) : bool :=
  match c, d with
  | Trigger, Trigger
  | StatefulTriggerMixin, StatefulTriggerMixin
  | EarlyStopping, EarlyStopping
  | ThresholdEarlyStopping, ThresholdEarlyStopping
  | PatienceEarlyStopping, PatienceEarlyStopping
  | SlopeThresholdEarlyStopping, SlopeThresholdEarlyStopping => true
  | _, _ => false
  end.

(** The bases of each class statement ([object] is left implicit: it
    binds neither [should_stop] nor [reset]). *)
Definition bases (c : class) : list class :=
  match c with
  | Trigger => []
  | StatefulTriggerMixin => []
  | EarlyStopping => [Trigger]
  | ThresholdEarlyStopping => [EarlyStopping]
  | PatienceEarlyStopping => [EarlyStopping; StatefulTriggerMixin]
  | SlopeThresholdEarlyStopping => [EarlyStopping; StatefulTriggerMixin]
  end.

(** C3 merge: repeatedly take the first head that is in no tail. *)
Fixpoint merge (fuel : nat) (ls : list (list class)) : option (list class) :=
  match fuel with
  | O => None
  | S fuel' =>
      match filter (fun l => negb (length l =? 0)%nat) ls with
      | [] => Some []
      | ls' =>
          let in_no_tail h :=
            forallb (fun l => negb (existsb (class_eqb h) (tl l))) ls' in
          match find in_no_tail (concat (map (firstn 1) ls')) with
          | None => None
          | Some h =>
              option_map (cons h)
                (merge fuel'
                   (map (filter (fun k => negb (class_eqb h k))) ls'))
          end
      end
  end.

Fixpoint sequence {X : Type} (l : list (option X)) : option (list X) :=
  match l with
  | [] => Some []
  | None :: _ => None
  | Some a :: l' => option_map (cons a) (sequence l')
  end.

Fixpoint linearise (depth : nat) (c : class) : option (list class) :=
  match depth with
  | O => None
  | S depth' =>
      match sequence (map (linearise depth') (bases c)) with
      | None => None
      | Some ls => option_map (cons c) (merge 8 (ls ++ [bases c]))
      end
  end.

Definition mro (c : class) : list class :=
  match linearise 4 c with
  | Some l => l
  | None => []
  end.

(** Instances. *)
Inductive object : Type :=
| OThreshold (o : Threshold.t)
| OPatience (o : Patience.t)
| OSlope (o : Slope.t).

Definition class_of (self : object) : class :=
  match self with
  | OThreshold _ => ThresholdEarlyStopping
  | OPatience _ => PatienceEarlyStopping
  | OSlope _ => SlopeThresholdEarlyStopping
  end.

(** A method of one class run on an instance; on an instance of another
    class the call is a [TypeError]. *)
Definition on_threshold {R} (m : method Threshold.t R) : method object R :=
  fun self =>
    match self with
    | OThreshold o => let '(o', r) := m o in (OThreshold o', r)
    | _ => (self, Raise TypeError)
    end.

Definition on_patience {R} (m : method Patience.t R) : method object R :=
  fun self =>
    match self with
    | OPatience o => let '(o', r) := m o in (OPatience o', r)
    | _ => (self, Raise TypeError)
    end.

Definition on_slope {R} (m : method Slope.t R) : method object R :=
  fun self =>
    match self with
    | OSlope o => let '(o', r) := m o in (OSlope o', r)
    | _ => (self, Raise TypeError)
    end.

Section Calls.

Variable lstsq_float64 : list (Q * Q) -> list Q -> value * value.

Variable lstsq_nonfinite :
  list (value * value) -> list value -> outcome (value * value).

(** The [reset] bound in the body of a class, if any. *)
Definition reset_def (c : class) : option (method object unit) :=
  match c with
  | StatefulTriggerMixin => Some (raise NotImplementedError)
  | PatienceEarlyStopping => Some (on_patience Patience.reset)
  | SlopeThresholdEarlyStopping =>
      Some (on_slope (Slope.reset))
  | Trigger | EarlyStopping | ThresholdEarlyStopping => None
  end.

(** The [should_stop] bound in the body of a class, if any. *)
Definition should_stop_def (c : class) : option (value -> method object bool) :=
  match c with
  | EarlyStopping => Some (fun _ => raise NotImplementedError)
  | ThresholdEarlyStopping =>
      Some (fun v => on_threshold (Threshold.should_stop v))
  | PatienceEarlyStopping =>
      Some (fun v => on_patience (Patience.should_stop v))
  | SlopeThresholdEarlyStopping =>
      Some (fun v => on_slope (Slope.should_stop lstsq_float64 lstsq_nonfinite v))
  | Trigger | StatefulTriggerMixin => None
  end.

(** Attribute lookup on the class of an instance: the first binding
    along the method resolution order. *)
Fixpoint lookup {X : Type} (def : class -> option X) (l : list class) : option X :=
  match l with
  | [] => None
  | c :: l' =>
      match def c with
      | Some b => Some b
      | None => lookup def l'
      end
  end.

(** [self.reset()] *)
Definition call_reset : method object unit :=
  fun self =>
    match lookup reset_def (mro (class_of self)) with
    | Some body => body self
    | None => (self, Raise AttributeError)
    end.

(** [self.should_stop(new_value)] *)
Definition call_should_stop (new_value : value) : method object bool :=
  fun self =>
    match lookup should_stop_def (mro (class_of self)) with
    | Some body => body new_value self
    | None => (self, Raise AttributeError)
    end.

End Calls.

End Py.

(** ** States of the slope criterion and the values behind them

    [history mn mx W s vs]: the object [s] is reached from
    [SlopeThresholdEarlyStopping(mn, mx, W)] by calls of [should_stop] and
    [reset], and [vs] are the values supplied since construction or the
    last reset, oldest first. *)

Section History.

Variable lstsq_float64 : list (Q * Q) -> list Q -> value * value.

Variable lstsq_nonfinite :
  list (value * value) -> list value -> outcome (value * value).

Inductive history (mn mx : value) (W : nat) : Slope.t -> list value -> Prop :=
| history_init :
    history mn mx W (Slope.init mn mx W) []
| history_should_stop (s : Slope.t) (vs : list value) (v : value) :
    history mn mx W s vs ->
    history mn mx W (fst (Slope.should_stop lstsq_float64 lstsq_nonfinite v s)) (vs ++ [v])
| history_reset (s : Slope.t) (vs : list value) :
    history mn mx W s vs ->
    history mn mx W (fst (Slope.reset s)) [].

End History.

(** ** Time indices

    The time indices [0 .. W-1] of a window, as rationals. *)

Definition time_index (W : nat) : list Q :=
  map (fun i => inject_Z (Z.of_nat i)) (seq 0 W).

(** The fields of an object with history [vs]: the parameters are those of
    the constructor, the buffer holds the last [W] entries of the zero fill
    followed by [vs], and the counter is the number of supplied values,
    capped at [W - 1]. *)
Record slope_inv (mn mx : value) (W : nat) (s : Slope.t) (vs : list value) : Prop := {
  inv_min : Slope.min s = mn;
  inv_max : Slope.max s = mx;
  inv_time : Slope.time s = W;
  inv_x : Slope.x s = Np.arange W;
  inv_A : Slope.A s = Np.vstack_T (Np.arange W) (Np.ones (length (Np.arange W)));
  inv_y : Slope.y s = skipn (length vs) (Np.zeros W ++ vs);
  inv_points_seen : Slope.points_seen s = Z.of_nat (Nat.min (length vs) (W - 1))
}.

(** ** The system handed to [lstsq]

    The rows [(i, 1)] of the design matrix for [i = 0 .. W-1], as
    rationals. *)

Definition design (W : nat) : list (Q * Q) :=
  map (fun t => (t, 1%Q)) (time_index W).

(** ** Sanity checks of the embedding *)

Example mro_threshold :
  Py.mro Py.ThresholdEarlyStopping
  = [Py.ThresholdEarlyStopping; Py.EarlyStopping; Py.Trigger].
Proof. reflexivity. Qed.

Example mro_patience :
  Py.mro Py.PatienceEarlyStopping
  = [Py.PatienceEarlyStopping; Py.EarlyStopping; Py.Trigger;
     Py.StatefulTriggerMixin].
Proof. reflexivity. Qed.

Example mro_slope :
  Py.mro Py.SlopeThresholdEarlyStopping
  = [Py.SlopeThresholdEarlyStopping; Py.EarlyStopping; Py.Trigger;
     Py.StatefulTriggerMixin].
Proof. reflexivity. Qed.

Example call_reset_patience :
  Py.call_reset (Py.OPatience (Patience.mk 3 (Fin 7) 2))
  = (Py.OPatience (Patience.init 3), Return tt).
Proof. reflexivity. Qed.

(** A window of one row is rank deficient: the minimum-norm solution has
    slope 0. *)
Example lstsq_single_row :
  forall lstsq_float64 lstsq_nonfinite,
    Np.lstsq lstsq_float64 lstsq_nonfinite (Slope.A (Slope.init NegInf PosInf 1)) [Fin 7]
    = Return (Fin 0, Fin 7).
Proof. reflexivity. Qed.

(** An empty buffer has no last slot: with a window of 0 every call
    raises. *)
Example slope_empty_window :
  forall lstsq_float64 lstsq_nonfinite,
    results (Slope.should_stop lstsq_float64 lstsq_nonfinite) (Slope.init NegInf PosInf 0)
      [Fin 1; Fin 2]
    = [Raise IndexError; Raise IndexError].
Proof. reflexivity. Qed.

(** ** Comparisons *)

Lemma Qltb_lt (p q : Q) : Qltb p q = true <-> (p < q)%Q.
Proof.
  unfold Qltb. rewrite Qlt_alt.
  destruct (p ?= q)%Q; split; intro H; congruence.
Qed.

Lemma Qltb_irrefl (p : Q) : Qltb p p = false.
Proof.
  destruct (Qltb p p) eqn:E; [|reflexivity].
  apply Qltb_lt in E. exfalso. exact (Qlt_irrefl p E).
Qed.

(** No float is greater than itself. *)
Lemma gt_irrefl (a : value) : gt a a = false.
Proof.
  destruct a; simpl; auto using Qltb_irrefl.
Qed.

(** ** Threshold criterion *)

(** C6.  [should_stop(v)] of the threshold criterion returns
    [v > max or v < min] for every value [v] and leaves the object as it
    was; constructed with the default bounds it returns false for every
    finite [v]. *)
Theorem threshold_should_stop_spec :
  (forall (self : Threshold.t) (v : value),
      Threshold.should_stop v self
      = (self, Return (gt v (Threshold.max self) || lt v (Threshold.min self))))
  /\ (forall q : Q,
         Threshold.should_stop (Fin q)
           (Threshold.init Threshold.default_min_threshold
              Threshold.default_max_threshold)
         = (Threshold.init NegInf PosInf, Return false)).
Proof.
  split.
  - intros self v. unfold Threshold.should_stop, bind, attr, ret.
    destruct (gt v (Threshold.max self)); reflexivity.
  - intro q. reflexivity.
Qed.

(** ** Patience criterion *)

(** C1, as the code has it.  With [patience = 1] the values [5, 5, 5] give
    [false, false, true]: a value equal to [best_so_far] never counts as an
    improvement, so the counter advances from the first repeated value (it
    reads 0, 1, 2 after the three calls) and exceeds the patience at the
    third call. *)
Theorem patience_plateau :
  results Patience.should_stop (Patience.init 1) [Fin 5; Fin 5; Fin 5]
  = [Return false; Return false; Return true]
  /\ map (fun vs => Patience.time_since_best
                      (feed Patience.should_stop (Patience.init 1) vs))
       [[Fin 5]; [Fin 5; Fin 5]; [Fin 5; Fin 5; Fin 5]]
     = [0; 1; 2]
  /\ (forall self : Patience.t,
         fst (Patience.should_stop (Patience.best_so_far self) self)
         = Patience.set_time_since_best (Patience.time_since_best self + 1) self).
Proof.
  split; [reflexivity|]. split; [reflexivity|].
  intro self. unfold Patience.should_stop, bind, attr.
  now rewrite gt_irrefl.
Qed.

(** C1, as stated, fails: the second call does not return true. *)
Lemma patience_plateau_not_as_stated :
  results Patience.should_stop (Patience.init 1) [Fin 5; Fin 5; Fin 5]
  <> [Return false; Return true; Return true].
Proof. vm_compute. discriminate. Qed.

(** C2.  One call of [should_stop]: a value strictly greater than
    [best_so_far] becomes the new best, zeroes the counter and returns
    false; any other value adds one to the counter and returns whether the
    new count exceeds the patience.  The values [1, 5, 3, 3, 3] with
    [patience = 2] return [false, false, false, false, true]. *)
Theorem patience_should_stop_spec :
  (forall (self : Patience.t) (v : value),
      Patience.should_stop v self
      = if gt v (Patience.best_so_far self)
        then (Patience.mk (Patience.patience self) v 0, Return false)
        else (Patience.mk (Patience.patience self) (Patience.best_so_far self)
                (Patience.time_since_best self + 1),
              Return (Patience.time_since_best self + 1 >? Patience.patience self)))
  /\ results Patience.should_stop (Patience.init 2)
       [Fin 1; Fin 5; Fin 3; Fin 3; Fin 3]
     = [Return false; Return false; Return false; Return false; Return true].
Proof.
  split; [|reflexivity].
  intros self v. unfold Patience.should_stop, bind, attr.
  destruct (gt v (Patience.best_so_far self)); reflexivity.
Qed.

(** [reset] puts the patience criterion back into its constructed state. *)
Lemma patience_reset_init (self : Patience.t) :
  Patience.reset self = (Patience.init (Patience.patience self), Return tt).
Proof. reflexivity. Qed.

(** C10.  A first value of minus infinity, after construction or after a
    reset, is not an improvement on the initial [best_so_far]: the counter
    goes to 1 on that call, which returns whether 1 exceeds the patience;
    with [patience = 0] it returns true. *)
Theorem patience_first_neg_inf :
  (forall p : Z,
      Patience.should_stop NegInf (Patience.init p)
      = (Patience.mk p NegInf 1, Return (1 >? p)))
  /\ (forall self : Patience.t,
         Patience.should_stop NegInf (fst (Patience.reset self))
         = (Patience.mk (Patience.patience self) NegInf 1,
            Return (1 >? Patience.patience self)))
  /\ snd (Patience.should_stop NegInf (Patience.init 0)) = Return true.
Proof. repeat split. Qed.

(** ** Calls of [reset] *)

(** C8.  [reset()] on a threshold criterion raises: no class on its method
    resolution order binds [reset], so the attribute lookup fails with
    [AttributeError]; the object is left as it was and the call never
    returns normally. *)
Theorem threshold_reset_unsupported :
  forall o : Threshold.t,
    Py.call_reset (Py.OThreshold o) = (Py.OThreshold o, Raise AttributeError)
    /\ snd (Py.call_reset (Py.OThreshold o)) <> Return tt.
Proof.
  intro o. split; [reflexivity|]. simpl. discriminate.
Qed.

(** ** Slope criterion: one call in closed form *)

Lemma skipn_all_but_one {X : Type} (a : X) (t : list X) :
  exists z, skipn (length t) (a :: t) = [z].
Proof.
  revert a. induction t as [|b t IH]; intro a.
  - now exists a.
  - exact (IH b).
Qed.

(** Shifting a non-empty buffer left and overwriting its last slot. *)
Lemma shift_append (a : value) (t : list value) (v : value) :
  Np.setitem_last (Np.assign_init (a :: t) (Np.from1 (a :: t))) v
  = Return (t ++ [v]).
Proof.
  unfold Np.assign_init, Np.from1. simpl tl.
  replace (length (a :: t) - 1)%nat with (length t) by (simpl; lia).
  destruct (skipn_all_but_one a t) as [z ->].
  unfold Np.setitem_last.
  destruct (t ++ [z]) eqn:E.
  - now destruct t.
  - now rewrite <- E, removelast_last.
Qed.

Section SlopeCall.

Variable lstsq_float64 : list (Q * Q) -> list Q -> value * value.

Variable lstsq_nonfinite :
  list (value * value) -> list value -> outcome (value * value).

Lemma slope_should_stop_empty (v : value) (s : Slope.t) :
  Slope.y s = [] ->
  Slope.should_stop lstsq_float64 lstsq_nonfinite v s = (Slope.set_y [] s, Raise IndexError).
Proof.
  intro E. unfold Slope.should_stop, bind, attr, assign, lift.
  rewrite E. reflexivity.
Qed.

Lemma slope_should_stop_cons (v : value) (s : Slope.t) (a : value) (t : list value) :
  Slope.y s = a :: t ->
  Slope.should_stop lstsq_float64 lstsq_nonfinite v s
  = if Slope.points_seen s <? Z.of_nat (Slope.time s) - 1
    then (Slope.set_points_seen (Slope.points_seen s + 1)
            (Slope.set_y (t ++ [v]) s),
          Return false)
    else
      match Np.lstsq lstsq_float64 lstsq_nonfinite (Slope.A s) (t ++ [v]) with
      | Return mc =>
          (Slope.set_y (t ++ [v]) s,
           Return (lt (fst mc) (Slope.min s) || gt (fst mc) (Slope.max s)))
      | Raise e => (Slope.set_y (t ++ [v]) s, Raise e)
      end.
Proof.
  destruct s as [mn mx seen w xs ys rows]. cbn [Slope.y]. intros ->.
  unfold Slope.should_stop, bind, attr, assign, lift, ret.
  unfold Slope.set_y, Slope.set_points_seen.
  cbn [Slope.y Slope.points_seen Slope.time Slope.A Slope.min Slope.max Slope.x].
  rewrite shift_append.
  destruct (seen <? Z.of_nat w - 1); [reflexivity|].
  cbn [Slope.y Slope.points_seen Slope.time Slope.A Slope.min Slope.max Slope.x].
  destruct (Np.lstsq lstsq_float64 lstsq_nonfinite rows (t ++ [v])) as [mc|e]; [|reflexivity].
  destruct (lt (fst mc) mn); reflexivity.
Qed.

End SlopeCall.

(** ** Slope criterion: what every reachable object looks like *)

Lemma fill_repeat (a : list value) (c : value) :
  Np.fill a c = repeat c (length a).
Proof.
  unfold Np.fill. induction a as [|b a IH]; simpl; congruence.
Qed.

Lemma zeros_length (W : nat) : length (Np.zeros W) = W.
Proof. apply repeat_length. Qed.

Lemma skipn_snoc {X : Type} (n : nat) (l : list X) (a : X) (t : list X) (v : X) :
  skipn n l = a :: t -> skipn (S n) (l ++ [v]) = t ++ [v].
Proof.
  intro E.
  assert (Hn : (n < length l)%nat).
  { destruct (Nat.lt_ge_cases n (length l)) as [H|H]; [exact H|].
    rewrite (skipn_all2 l H) in E. discriminate. }
  change (S n) with (1 + n)%nat. rewrite <- skipn_skipn, skipn_app, E.
  replace (n - length l)%nat with 0%nat by lia. reflexivity.
Qed.


Section SlopeInvariant.

Variable lstsq_float64 : list (Q * Q) -> list Q -> value * value.

Variable lstsq_nonfinite :
  list (value * value) -> list value -> outcome (value * value).

Lemma slope_inv_y_length mn mx W s vs :
  slope_inv mn mx W s vs -> length (Slope.y s) = W.
Proof.
  intros [_ _ _ _ _ Hy _]. rewrite Hy, length_skipn, length_app, zeros_length. lia.
Qed.

Lemma slope_inv_should_stop mn mx W s vs v :
  slope_inv mn mx W s vs ->
  slope_inv mn mx W (fst (Slope.should_stop lstsq_float64 lstsq_nonfinite v s)) (vs ++ [v]).
Proof.
  intro I. pose proof (slope_inv_y_length _ _ _ _ _ I) as HW.
  destruct I as [Hmn Hmx Ht Hx HA Hy Hp].
  destruct (Slope.y s) as [|a t] eqn:E.
  - rewrite (slope_should_stop_empty _ _ _ _ E). simpl in HW. subst W.
    destruct s; simpl in *; subst. split; simpl; try reflexivity.
    + rewrite skipn_all2; [reflexivity|]. rewrite length_app. simpl. lia.
    + rewrite length_app. simpl. lia.
  - rewrite (slope_should_stop_cons _ _ _ _ _ _ E).
    assert (Hy' : t ++ [v] = skipn (length (vs ++ [v])) (Np.zeros W ++ vs ++ [v])).
    { rewrite length_app. simpl length. rewrite Nat.add_1_r, app_assoc.
      symmetry. apply (skipn_snoc _ _ a). now rewrite <- Hy. }
    assert (HW' : (1 <= W)%nat) by (simpl in HW; lia).
    rewrite Ht.
    destruct (Slope.points_seen s <? Z.of_nat W - 1) eqn:C.
    + apply Z.ltb_lt in C.
      destruct s; simpl in *; subst. split; simpl; try reflexivity; try assumption.
      rewrite length_app. simpl length. lia.
    + apply Z.ltb_ge in C.
      assert (Hp' : Slope.points_seen s
                    = Z.of_nat (Nat.min (length (vs ++ [v])) (W - 1))).
      { rewrite length_app. simpl length. lia. }
      destruct (Np.lstsq lstsq_float64 lstsq_nonfinite (Slope.A s) (t ++ [v]));
        destruct s; simpl in *; subst; split; simpl; auto.
Qed.

Lemma slope_reset_init mn mx W s vs :
  slope_inv mn mx W s vs ->
  Slope.reset s = (Slope.init mn mx W, Return tt).
Proof.
  intro I. pose proof (slope_inv_y_length _ _ _ _ _ I) as HW.
  destruct I as [Hmn Hmx Ht Hx HA Hy Hp].
  unfold Slope.reset, bind, assign, attr, Slope.init.
  destruct s; simpl in *. rewrite fill_repeat, HW. subst. reflexivity.
Qed.

Lemma history_inv mn mx W s vs :
  history lstsq_float64 lstsq_nonfinite mn mx W s vs -> slope_inv mn mx W s vs.
Proof.
  induction 1 as [|s vs v _ IH|s vs _ IH].
  - split; try reflexivity. simpl. now rewrite app_nil_r.
  - now apply slope_inv_should_stop.
  - rewrite (slope_reset_init _ _ _ _ _ IH). simpl.
    split; try reflexivity. simpl. now rewrite app_nil_r.
Qed.

End SlopeInvariant.

(** ** Slope criterion: warm-up, reset and frame *)

(** C4.  A call of [should_stop] made while fewer than [W] values have been
    supplied since construction or the last reset, the value of the call
    included, returns false whatever the value and the bounds are; with a
    window of 3 the first two calls return false. *)
Theorem slope_warm_up :
  (forall lstsq_float64 lstsq_nonfinite (mn mx : value) (W : nat) (s : Slope.t)
          (vs : list value) (v : value),
      history lstsq_float64 lstsq_nonfinite mn mx W s vs ->
      (length (vs ++ [v]) < W)%nat ->
      snd (Slope.should_stop lstsq_float64 lstsq_nonfinite v s) = Return false)
  /\ (forall lstsq_float64 lstsq_nonfinite (mn mx v1 v2 : value),
         results (Slope.should_stop lstsq_float64 lstsq_nonfinite) (Slope.init mn mx 3) [v1; v2]
         = [Return false; Return false]).
Proof.
  split; [|reflexivity].
  intros lf nf mn mx W s vs v H Hlen.
  apply history_inv in H.
  pose proof (slope_inv_y_length _ _ _ _ _ H) as HW.
  destruct H as [_ _ Ht _ _ _ Hp].
  rewrite length_app in Hlen. simpl in Hlen.
  destruct (Slope.y s) as [|a t] eqn:E; [simpl in HW; lia|].
  rewrite (slope_should_stop_cons _ _ _ _ _ _ E), Ht, Hp.
  destruct (Z.ltb_spec (Z.of_nat (Nat.min (length vs) (W - 1))) (Z.of_nat W - 1));
    [reflexivity|lia].
Qed.

Lemma slope_warm_up_witness :
  snd (Slope.should_stop (fun _ _ => (NaN, NaN)) (fun _ _ => Raise LinAlgError) PosInf
         (fst (Slope.should_stop (fun _ _ => (NaN, NaN)) (fun _ _ => Raise LinAlgError) NaN
                 (Slope.init (Fin 0) (Fin 0) 3))))
  = Return false.
Proof.
  apply (proj1 slope_warm_up (fun _ _ => (NaN, NaN)) (fun _ _ => Raise LinAlgError) (Fin 0) (Fin 0) 3%nat
           _ [NaN] PosInf).
  - apply (history_should_stop _ _ _ _ _ _ [] NaN). apply history_init.
  - simpl. lia.
Defined.

(** C7.  After [reset()] a patience or slope criterion answers every value
    sequence exactly as a freshly constructed criterion with the same
    parameters does: the reset object is the constructed one. *)
Theorem reset_replay :
  (forall (self : Patience.t) (vs : list value),
      snd (Patience.reset self) = Return tt
      /\ results Patience.should_stop (fst (Patience.reset self)) vs
         = results Patience.should_stop (Patience.init (Patience.patience self)) vs)
  /\ (forall lstsq_float64 lstsq_nonfinite (mn mx : value) (W : nat) (s : Slope.t)
             (vs0 vs : list value),
         history lstsq_float64 lstsq_nonfinite mn mx W s vs0 ->
         snd (Slope.reset s) = Return tt
         /\ results (Slope.should_stop lstsq_float64 lstsq_nonfinite) (fst (Slope.reset s)) vs
            = results (Slope.should_stop lstsq_float64 lstsq_nonfinite) (Slope.init mn mx W) vs).
Proof.
  split.
  - intros self vs. now rewrite patience_reset_init.
  - intros lf nf mn mx W s vs0 vs H. apply history_inv in H.
    now rewrite (slope_reset_init _ _ _ _ _ H).
Qed.

Lemma reset_replay_witness :
  let lf := fun (_ : list (Q * Q)) (_ : list Q) => (NaN, NaN) in
  let nf := fun (_ : list (value * value)) (_ : list value) =>
              @Raise (value * value) LinAlgError in
  let s := feed (Slope.should_stop lf nf) (Slope.init NegInf (Fin 2) 3)
             [Fin 4; Fin 1] in
  results (Slope.should_stop lf nf) (fst (Slope.reset s)) [Fin 1; Fin 2; Fin 3; Fin 9]
  = results (Slope.should_stop lf nf) (Slope.init NegInf (Fin 2) 3)
      [Fin 1; Fin 2; Fin 3; Fin 9].
Proof.
  intros lf nf s.
  apply (proj2 reset_replay lf nf NegInf (Fin 2) 3%nat s [Fin 4; Fin 1]).
  apply (history_should_stop lf nf _ _ _ _ [Fin 4] (Fin 1)).
  apply (history_should_stop lf nf _ _ _ _ [] (Fin 4)).
  apply history_init.
Defined.

(** C9.  No [should_stop] call writes a construction-time parameter: the
    threshold criterion is left as it was, the patience criterion keeps
    [patience], and the slope criterion keeps [min], [max], [time], [x] and
    [A]; what can change is [best_so_far] and [time_since_best] of the
    former, [y] and [points_seen] of the latter. *)
Theorem should_stop_frame :
  (forall (self : Threshold.t) (v : value),
      fst (Threshold.should_stop v self) = self)
  /\ (forall (self : Patience.t) (v : value),
         Patience.patience (fst (Patience.should_stop v self))
         = Patience.patience self)
  /\ (forall lstsq_float64 lstsq_nonfinite (self : Slope.t) (v : value),
         let self' := fst (Slope.should_stop lstsq_float64 lstsq_nonfinite v self) in
         Slope.min self' = Slope.min self
         /\ Slope.max self' = Slope.max self
         /\ Slope.time self' = Slope.time self
         /\ Slope.x self' = Slope.x self
         /\ Slope.A self' = Slope.A self).
Proof.
  split; [|split].
  - intros self v. unfold Threshold.should_stop, bind, attr, ret.
    destruct (gt v (Threshold.max self)); reflexivity.
  - intros self v. unfold Patience.should_stop, bind, attr.
    destruct (gt v (Patience.best_so_far self)); reflexivity.
  - intros lf nf self v. simpl.
    destruct (Slope.y self) as [|a t] eqn:E.
    + rewrite (slope_should_stop_empty _ _ _ _ E). now repeat split.
    + rewrite (slope_should_stop_cons _ _ _ _ _ _ E).
      destruct (Slope.points_seen self <? Z.of_nat (Slope.time self) - 1);
        [now repeat split|].
      destruct (Np.lstsq lf nf (Slope.A self) (t ++ [v])); now repeat split.
Qed.

(** ** Sums over the rows of a system *)


(** ** The design matrix of the slope criterion *)

Lemma time_index_length (W : nat) : length (time_index W) = W.
Proof. unfold time_index. now rewrite length_map, length_seq. Qed.


Lemma finite_rows_design (W : nat) :
  Np.finite_rows (Np.vstack_T (Np.arange W) (Np.ones (length (Np.arange W))))
  = Some (design W).
Proof.
  unfold Np.vstack_T, Np.arange, Np.ones, design, time_index.
  induction (seq 0 W) as [|i l IH]; simpl.
  - reflexivity.
  - simpl in IH. now rewrite IH.
Qed.

Lemma finite_entries_map_Fin (qs : list Q) :
  Np.finite_entries (map Fin qs) = Some qs.
Proof.
  induction qs as [|q qs IH]; simpl.
  - reflexivity.
  - now rewrite IH.
Qed.




(** ** [lstsq] on the design matrix *)

Lemma design_matrix_length (W : nat) :
  length (Np.vstack_T (Np.arange W) (Np.ones (length (Np.arange W)))) = W.
Proof.
  unfold Np.vstack_T, Np.ones, Np.arange.
  rewrite length_combine, repeat_length, length_map, length_seq. lia.
Qed.


Section LstsqDesign.

Variable lstsq_float64 : list (Q * Q) -> list Q -> value * value.

Variable lstsq_nonfinite :
  list (value * value) -> list value -> outcome (value * value).

(** On the design matrix and a finite right-hand side [lstsq] returns a
    pair of floats. *)
Lemma lstsq_design_returns (W : nat) (qs : list Q) :
  length qs = W ->
  exists mc : value * value,
    Np.lstsq lstsq_float64 lstsq_nonfinite
      (Np.vstack_T (Np.arange W) (Np.ones (length (Np.arange W)))) (map Fin qs)
    = Return mc.
Proof.
  intro Hlen. unfold Np.lstsq.
  rewrite design_matrix_length, length_map, Hlen, Nat.eqb_refl.
  cbn [negb]. rewrite finite_rows_design, finite_entries_map_Fin.
  destruct (Qeq_bool (Np.gram_det (design W)) 0).
  - destruct (Np.lstsq_min_norm (design W) qs) as [m c]. now eexists.
  - now eexists.
Qed.


(** With a single row it is the minimum-norm solution. *)
Lemma lstsq_design_single_row (q : Q) :
  Np.lstsq lstsq_float64 lstsq_nonfinite
    (Np.vstack_T (Np.arange 1) (Np.ones (length (Np.arange 1)))) (map Fin [q])
  = Return (Fin (fst (Np.lstsq_min_norm (design 1) [q])),
            Fin (snd (Np.lstsq_min_norm (design 1) [q]))).
Proof.
  unfold Np.lstsq.
  rewrite design_matrix_length, finite_rows_design, finite_entries_map_Fin.
  cbn [map length Nat.eqb negb].
  assert (E : Qeq_bool (Np.gram_det (design 1)) 0 = true) by reflexivity.
  rewrite E. now destruct (Np.lstsq_min_norm (design 1) [q]).
Qed.

(** A call once the counter has reached [W - 1]: the buffer becomes the
    last [W] supplied values and [lstsq] decides. *)
Lemma slope_call_warm mn mx W s vs v :
  slope_inv mn mx W s vs ->
  (1 <= W)%nat ->
  (W <= length (vs ++ [v]))%nat ->
  let buf := skipn (length (vs ++ [v]) - W) (vs ++ [v]) in
  Slope.should_stop lstsq_float64 lstsq_nonfinite v s
  = match Np.lstsq lstsq_float64 lstsq_nonfinite
            (Np.vstack_T (Np.arange W) (Np.ones (length (Np.arange W)))) buf with
    | Return mc =>
        (Slope.set_y buf s, Return (lt (fst mc) mn || gt (fst mc) mx))
    | Raise e => (Slope.set_y buf s, Raise e)
    end.
Proof.
  intros H HW Hlen buf.
  pose proof (slope_inv_y_length _ _ _ _ _ H) as Hy_len.
  destruct H as [Hmn Hmx Ht Hx HA Hy Hp].
  destruct (Slope.y s) as [|a t] eqn:E; [simpl in Hy_len; lia|].
  assert (Hy' : t ++ [v] = buf).
  { unfold buf. symmetry in Hy.
    rewrite <- (skipn_snoc _ _ _ _ v Hy), <- app_assoc, skipn_app.
    rewrite skipn_all2 by (rewrite zeros_length, length_app in *; simpl in *; lia).
    rewrite zeros_length, !length_app. cbn [app length].
    f_equal. lia. }
  rewrite (slope_should_stop_cons _ _ _ _ _ _ E), Ht, Hp, Hy', HA, Hmn, Hmx.
  rewrite length_app in Hlen. simpl in Hlen.
  destruct (Z.ltb_spec (Z.of_nat (Nat.min (length vs) (W - 1))) (Z.of_nat W - 1));
    [lia|reflexivity].
Qed.

End LstsqDesign.

(** ** Slope criterion: the decision *)



(** ** Further properties of the comparisons *)

Lemma Qltb_ge (p q : Q) : Qltb p q = false <-> (q <= p)%Q.
Proof.
  split; intro H.
  - apply Qnot_lt_le. intro L. apply Qltb_lt in L. congruence.
  - destruct (Qltb p q) eqn:E; [|reflexivity].
    apply Qltb_lt in E. exfalso. exact (Qlt_not_le _ _ E H).
Qed.

Lemma lt_trans (a b c : value) :
  lt a b = true -> lt b c = true -> lt a c = true.
Proof.
  destruct a as [| |p|], b as [| |q|], c as [| |r|]; simpl;
    try discriminate; try reflexivity.
  rewrite !Qltb_lt. apply Qlt_trans.
Qed.

(** Two floats that are not NaN are ordered one way or the other. *)
Lemma lt_total (a b c : value) :
  b <> NaN -> lt a b = false -> lt a c = true -> lt b c = true.
Proof.
  destruct a as [| |p|], b as [| |q|], c as [| |r|]; simpl;
    try discriminate; try reflexivity; try congruence.
  intros _. rewrite Qltb_ge, !Qltb_lt. intros H1 H2.
  exact (Qle_lt_trans _ _ _ H1 H2).
Qed.

(** Comparisons do not see which fraction represents a number. *)
Lemma lt_Fin_Qeq (p q : Q) (a : value) :
  (p == q)%Q -> lt (Fin p) a = lt (Fin q) a /\ lt a (Fin p) = lt a (Fin q).
Proof.
  intro E. destruct a as [| |r|]; simpl; auto.
  unfold Qltb. now rewrite E.
Qed.

(** ** Patience criterion: what the counter and the record mean *)

Lemma patience_best_monotone (x : value) (vs : list value) (self : Patience.t) :
  gt x (Patience.best_so_far self) = false ->
  gt x (Patience.best_so_far (feed Patience.should_stop self vs)) = false.
Proof.
  revert self. induction vs as [|v vs IH]; intros self H; [exact H|].
  simpl. apply IH.
  unfold Patience.should_stop, bind, attr.
  destruct (gt v (Patience.best_so_far self)) eqn:C; simpl; [|exact H].
  destruct (gt x v) eqn:D; [|reflexivity].
  unfold gt in *. rewrite (lt_trans _ _ _ C D) in H. discriminate.
Qed.

Lemma patience_best_bounds (vs : list value) (self : Patience.t) (v : value) :
  In v vs ->
  gt v (Patience.best_so_far (feed Patience.should_stop self vs)) = false.
Proof.
  revert self. induction vs as [|w vs IH]; intros self Hin; [destruct Hin|].
  destruct Hin as [->|Hin].
  - simpl. apply patience_best_monotone.
    unfold Patience.should_stop, bind, attr.
    destruct (gt v (Patience.best_so_far self)) eqn:C; simpl;
      [apply gt_irrefl|exact C].
  - simpl. now apply IH.
Qed.

Lemma patience_best_origin (vs : list value) (self : Patience.t) :
  Patience.best_so_far (feed Patience.should_stop self vs)
  = Patience.best_so_far self
  \/ In (Patience.best_so_far (feed Patience.should_stop self vs)) vs.
Proof.
  revert self. induction vs as [|w vs IH]; intro self; [now left|].
  simpl. destruct (IH (fst (Patience.should_stop w self))) as [E|Hin];
    [|now right; right].
  rewrite E. unfold Patience.should_stop, bind, attr.
  destruct (gt w (Patience.best_so_far self)); simpl; [right|]; now left.
Qed.

(** X1.  [best_so_far] is the greatest value seen: after any calls on a
    constructed criterion no supplied value is strictly greater than it, and
    it is either the initial minus infinity or one of the supplied values. *)
Theorem patience_best_is_maximum :
  forall (p : Z) (vs : list value),
    let self := feed Patience.should_stop (Patience.init p) vs in
    (forall v, In v vs -> gt v (Patience.best_so_far self) = false)
    /\ (Patience.best_so_far self = NegInf \/ In (Patience.best_so_far self) vs).
Proof.
  intros p vs. cbv zeta. split.
  - intros v Hin. now apply patience_best_bounds.
  - destruct (patience_best_origin vs (Patience.init p)) as [E|Hin];
      [left; exact E|now right].
Qed.

Lemma patience_best_is_maximum_witness :
  gt (Fin 3) (Patience.best_so_far
                (feed Patience.should_stop (Patience.init 1)
                   [Fin 3; NaN; Fin 7; Fin 7; NegInf]))
  = false.
Proof.
  apply (proj1 (patience_best_is_maximum 1 [Fin 3; NaN; Fin 7; Fin 7; NegInf])
           (Fin 3)).
  simpl. now left.
Defined.

Lemma patience_call (v : value) (self : Patience.t) :
  Patience.should_stop v self
  = if gt v (Patience.best_so_far self)
    then (Patience.mk (Patience.patience self) v 0, Return false)
    else (Patience.set_time_since_best (Patience.time_since_best self + 1) self,
          Return (Patience.time_since_best self + 1 >? Patience.patience self)).
Proof.
  unfold Patience.should_stop, bind, attr.
  destruct (gt v (Patience.best_so_far self)); reflexivity.
Qed.

Lemma patience_quiet_run (vs : list value) (self : Patience.t) :
  0 <= Patience.time_since_best self ->
  Patience.time_since_best self + Z.of_nat (length vs) <= Patience.patience self ->
  results Patience.should_stop self vs = repeat (Return false) (length vs).
Proof.
  revert self. induction vs as [|v vs IH]; intros self H0 H; [reflexivity|].
  cbn [results length repeat]. cbn [length] in H.
  rewrite patience_call.
  destruct (gt v (Patience.best_so_far self)); cbn [fst snd].
  - f_equal. apply IH; simpl; lia.
  - f_equal.
    + f_equal. rewrite Z.gtb_ltb. apply Z.ltb_ge. lia.
    + apply IH; simpl; lia.
Qed.

(** X4.  A constructed criterion with patience [p] answers false to each of its
    first [p] calls, whatever the values are. *)
Theorem patience_no_stop_within_patience :
  forall (p : Z) (vs : list value),
    Z.of_nat (length vs) <= p ->
    results Patience.should_stop (Patience.init p) vs
    = repeat (Return false) (length vs).
Proof.
  intros p vs H. apply patience_quiet_run; simpl; lia.
Qed.

Lemma patience_no_stop_within_patience_witness :
  results Patience.should_stop (Patience.init 3) [NaN; NegInf; NaN]
  = repeat (Return false) 3.
Proof.
  apply (patience_no_stop_within_patience 3 [NaN; NegInf; NaN]).
  simpl. lia.
Defined.

Lemma patience_plateau_results (ws : list value) (self : Patience.t) :
  (forall w, In w ws -> gt w (Patience.best_so_far self) = false) ->
  results Patience.should_stop self ws
  = map (fun k => Return (Patience.time_since_best self + Z.of_nat k
                          >? Patience.patience self))
      (seq 1 (length ws)).
Proof.
  revert self. induction ws as [|w ws IH]; intros self H; [reflexivity|].
  cbn [results length seq map].
  assert (C : gt w (Patience.best_so_far self) = false) by (apply H; now left).
  assert (E : Patience.should_stop w self
              = (Patience.set_time_since_best (Patience.time_since_best self + 1) self,
                 Return (Patience.time_since_best self + 1 >? Patience.patience self))).
  { unfold Patience.should_stop, bind, attr. now rewrite C. }
  rewrite E. cbn [fst snd]. f_equal.
  rewrite IH by (intros w' Hin; apply H; now right).
  rewrite <- (seq_shift (length ws) 1), map_map. apply map_ext. intro k.
  cbn [Patience.set_time_since_best Patience.time_since_best Patience.patience].
  do 2 f_equal. lia.
Qed.

(** X2.  After a value that improves on [best_so_far], the [k]-th value in a row
    that does not improve on it is answered by [k > patience], in whatever
    state the improvement found the criterion. *)
Theorem patience_counts_since_best :
  forall (self : Patience.t) (b : value) (ws : list value),
    gt b (Patience.best_so_far self) = true ->
    (forall w, In w ws -> gt w b = false) ->
    results Patience.should_stop self (b :: ws)
    = Return false
      :: map (fun k => Return (Z.of_nat k >? Patience.patience self))
           (seq 1 (length ws)).
Proof.
  intros self b ws C H.
  assert (E : Patience.should_stop b self
              = (Patience.mk (Patience.patience self) b 0, Return false)).
  { unfold Patience.should_stop, bind, attr. now rewrite C. }
  cbn [results]. rewrite E. cbn [fst snd]. f_equal.
  now rewrite patience_plateau_results.
Qed.

Lemma patience_counts_since_best_witness :
  results Patience.should_stop (Patience.mk 2 (Fin 3) 7)
    [Fin 4; Fin 4; NaN; Fin 1; NegInf]
  = [Return false; Return false; Return false; Return true; Return true].
Proof.
  apply (patience_counts_since_best (Patience.mk 2 (Fin 3) 7) (Fin 4)
           [Fin 4; NaN; Fin 1; NegInf]).
  - reflexivity.
  - intros w [<-|[<-|[<-|[<-|[]]]]]; reflexivity.
Defined.

(** X3.  Stopping is sticky: once a call has returned true, every further call
    returns true until a value strictly greater than [best_so_far] comes. *)
Theorem patience_stop_is_sticky :
  forall (self : Patience.t) (v : value) (ws : list value),
    snd (Patience.should_stop v self) = Return true ->
    (forall w, In w ws ->
               gt w (Patience.best_so_far (fst (Patience.should_stop v self))) = false) ->
    results Patience.should_stop (fst (Patience.should_stop v self)) ws
    = repeat (Return true) (length ws).
Proof.
  intros self v ws.
  assert (E : Patience.should_stop v self
              = if gt v (Patience.best_so_far self)
                then (Patience.mk (Patience.patience self) v 0, Return false)
                else (Patience.set_time_since_best
                        (Patience.time_since_best self + 1) self,
                      Return (Patience.time_since_best self + 1
                              >? Patience.patience self))).
  { unfold Patience.should_stop, bind, attr.
    destruct (gt v (Patience.best_so_far self)); reflexivity. }
  rewrite E. destruct (gt v (Patience.best_so_far self)); [discriminate|].
  cbn [fst snd]. intros T H. rewrite patience_plateau_results by exact H.
  injection T as T. apply Z.gtb_lt in T.
  cbn [Patience.set_time_since_best Patience.time_since_best Patience.patience].
  generalize 1%nat. induction (length ws) as [|n IH]; intro a; [reflexivity|].
  cbn [seq map repeat]. rewrite IH. do 2 f_equal. apply Z.gtb_lt. lia.
Qed.

Lemma patience_stop_is_sticky_witness :
  results Patience.should_stop
    (fst (Patience.should_stop (Fin 1) (Patience.mk 0 (Fin 2) 0))) [Fin 2; NaN]
  = [Return true; Return true].
Proof.
  apply (patience_stop_is_sticky (Patience.mk 0 (Fin 2) 0) (Fin 1) [Fin 2; NaN]).
  - reflexivity.
  - intros w [<-|[<-|[]]]; reflexivity.
Defined.

(** ** Threshold criterion: NaN and inverted bounds *)

(** X5.  NaN never triggers the threshold criterion, whatever the bounds are;
    when the bounds are inverted ([max < min]) every other value does. *)
Theorem threshold_nan_and_inverted_bounds :
  (forall self : Threshold.t,
      snd (Threshold.should_stop NaN self) = Return false)
  /\ (forall (self : Threshold.t) (v : value),
         v <> NaN ->
         lt (Threshold.max self) (Threshold.min self) = true ->
         snd (Threshold.should_stop v self) = Return true).
Proof.
  split.
  - intro self. unfold Threshold.should_stop, bind, attr, ret.
    destruct (Threshold.max self); reflexivity.
  - intros self v Hv Hinv. unfold Threshold.should_stop, bind, attr, ret.
    unfold gt. destruct (lt (Threshold.max self) v) eqn:C; [reflexivity|].
    cbn [snd]. f_equal. exact (lt_total _ _ _ Hv C Hinv).
Qed.

Lemma threshold_nan_and_inverted_bounds_witness :
  snd (Threshold.should_stop (Fin 0) (Threshold.init (Fin 1) (Fin (-1))))
  = Return true.
Proof.
  apply (proj2 threshold_nan_and_inverted_bounds
           (Threshold.init (Fin 1) (Fin (-1))) (Fin 0)).
  - discriminate.
  - reflexivity.
Defined.

(** ** Method resolution: the stubs are shadowed *)

(** X6.  On an instance of each of the three concrete classes [should_stop]
    resolves to the method of its own class, and [reset] on a patience or
    slope criterion to its own [reset]: the bodies of
    [EarlyStopping.should_stop] and [StatefulTriggerMixin.reset], which
    raise [NotImplementedError], are not reached. *)
Theorem concrete_classes_override_stubs :
  forall lstsq_float64 lstsq_nonfinite (v : value),
    (forall o : Threshold.t,
        Py.call_should_stop lstsq_float64 lstsq_nonfinite v (Py.OThreshold o)
        = (Py.OThreshold (fst (Threshold.should_stop v o)),
           snd (Threshold.should_stop v o)))
    /\ (forall o : Patience.t,
           Py.call_should_stop lstsq_float64 lstsq_nonfinite v (Py.OPatience o)
           = (Py.OPatience (fst (Patience.should_stop v o)),
              snd (Patience.should_stop v o)))
    /\ (forall o : Slope.t,
           Py.call_should_stop lstsq_float64 lstsq_nonfinite v (Py.OSlope o)
           = (Py.OSlope (fst (Slope.should_stop lstsq_float64 lstsq_nonfinite v o)),
              snd (Slope.should_stop lstsq_float64 lstsq_nonfinite v o)))
    /\ (forall o : Patience.t,
           Py.call_reset (Py.OPatience o)
           = (Py.OPatience (fst (Patience.reset o)), Return tt))
    /\ (forall o : Slope.t,
           Py.call_reset (Py.OSlope o)
           = (Py.OSlope (fst (Slope.reset o)), Return tt)).
Proof.
  intros lf nf v. repeat split; intro o.
  - change (Py.call_should_stop lf nf v (Py.OThreshold o))
      with (Py.on_threshold (Threshold.should_stop v) (Py.OThreshold o)).
    unfold Py.on_threshold. now destruct (Threshold.should_stop v o).
  - change (Py.call_should_stop lf nf v (Py.OPatience o))
      with (Py.on_patience (Patience.should_stop v) (Py.OPatience o)).
    unfold Py.on_patience. now destruct (Patience.should_stop v o).
  - change (Py.call_should_stop lf nf v (Py.OSlope o))
      with (Py.on_slope (Slope.should_stop lf nf v) (Py.OSlope o)).
    unfold Py.on_slope. now destruct (Slope.should_stop lf nf v o).
Qed.

(** ** Slope criterion: the buffer and the counter *)


(** X7.  Whatever calls of [should_stop] and [reset] were made, the buffer has
    [time] slots and holds the last [time] entries of the zero fill followed
    by the values supplied since construction or the last reset, and
    [points_seen] is the number of those values, capped at [time - 1]. *)
Theorem slope_buffer_and_counter :
  forall lstsq_float64 lstsq_nonfinite (mn mx : value) (W : nat) (s : Slope.t) (vs : list value),
    history lstsq_float64 lstsq_nonfinite mn mx W s vs ->
    Slope.time s = W
    /\ length (Slope.y s) = W
    /\ Slope.y s = skipn (length vs) (Np.zeros W ++ vs)
    /\ Slope.points_seen s = Z.of_nat (Nat.min (length vs) (W - 1)).
Proof.
  intros lf nf mn mx W s vs H. apply history_inv in H.
  pose proof (slope_inv_y_length _ _ _ _ _ H) as Hy_len.
  destruct H as [_ _ Ht _ _ Hy Hp]. auto.
Qed.

Lemma slope_buffer_and_counter_witness :
  let lf := fun (_ : list (Q * Q)) (_ : list Q) => (NaN, NaN) in
  let nf := fun (_ : list (value * value)) (_ : list value) =>
              @Raise (value * value) LinAlgError in
  let s := fst (Slope.should_stop lf nf PosInf
                  (fst (Slope.should_stop lf nf (Fin 4) (Slope.init NaN NaN 2)))) in
  Slope.time s = 2%nat
  /\ length (Slope.y s) = 2%nat
  /\ Slope.y s = skipn 2 (Np.zeros 2 ++ [Fin 4; PosInf])
  /\ Slope.points_seen s = 1.
Proof.
  intros lf nf s.
  apply (slope_buffer_and_counter lf nf NaN NaN 2%nat s [Fin 4; PosInf]).
  apply (history_should_stop lf nf _ _ _ _ [Fin 4] PosInf).
  apply (history_should_stop lf nf _ _ _ _ [] (Fin 4)).
  apply history_init.
Defined.

(** X8.  With a window of 0 the criterion never leaves its constructed state and
    every [should_stop] raises [IndexError]: the empty buffer has no last
    slot to write. *)
Theorem slope_empty_window_raises :
  forall lstsq_float64 lstsq_nonfinite (mn mx : value) (s : Slope.t) (vs : list value) (v : value),
    history lstsq_float64 lstsq_nonfinite mn mx 0 s vs ->
    s = Slope.init mn mx 0
    /\ Slope.should_stop lstsq_float64 lstsq_nonfinite v s = (s, Raise IndexError).
Proof.
  intros lf nf mn mx s vs v H. apply history_inv in H.
  destruct H as [Hmn Hmx Ht Hx HA Hy Hp].
  assert (E : s = Slope.init mn mx 0).
  { destruct s; simpl in *; subst.
    rewrite skipn_all2 by (simpl; lia). now rewrite Nat.min_0_r. }
  split; [exact E|]. now subst s.
Qed.

Lemma slope_empty_window_raises_witness :
  let lf := fun (_ : list (Q * Q)) (_ : list Q) => (NaN, NaN) in
  let nf := fun (_ : list (value * value)) (_ : list value) =>
              @Raise (value * value) LinAlgError in
  let s := fst (Slope.reset (fst (Slope.should_stop lf nf (Fin 1)
                                    (Slope.init NegInf PosInf 0)))) in
  s = Slope.init NegInf PosInf 0
  /\ Slope.should_stop lf nf (Fin 2) s = (s, Raise IndexError).
Proof.
  intros lf nf s.
  apply (slope_empty_window_raises lf nf NegInf PosInf s [] (Fin 2)).
  apply (history_reset lf nf _ _ _ _ [Fin 1]).
  apply (history_should_stop lf nf _ _ _ _ [] (Fin 1)).
  apply history_init.
Defined.

(** X9.  The criterion has a memory of [time - 1] values: two objects with the
    same parameters whose histories end in the same [time - 1] values answer
    the next call alike and are the same object after it. *)
Theorem slope_finite_memory :
  forall lstsq_float64 lstsq_nonfinite (mn mx : value) (W : nat) (s1 s2 : Slope.t)
         (vs1 vs2 : list value) (v : value),
    history lstsq_float64 lstsq_nonfinite mn mx W s1 vs1 ->
    history lstsq_float64 lstsq_nonfinite mn mx W s2 vs2 ->
    (1 <= W)%nat ->
    (W - 1 <= length vs1)%nat ->
    (W - 1 <= length vs2)%nat ->
    skipn (length vs1 - (W - 1)) vs1 = skipn (length vs2 - (W - 1)) vs2 ->
    Slope.should_stop lstsq_float64 lstsq_nonfinite v s1 = Slope.should_stop lstsq_float64 lstsq_nonfinite v s2.
Proof.
  intros lf nf mn mx W s1 s2 vs1 vs2 v H1 H2 HW L1 L2 Htail.
  apply history_inv in H1. apply history_inv in H2.
  rewrite (slope_call_warm lf nf _ _ _ _ _ v H1 HW)
    by (rewrite length_app; simpl; lia).
  rewrite (slope_call_warm lf nf _ _ _ _ _ v H2 HW)
    by (rewrite length_app; simpl; lia).
  cbv zeta.
  assert (B : skipn (length (vs1 ++ [v]) - W) (vs1 ++ [v])
              = skipn (length (vs2 ++ [v]) - W) (vs2 ++ [v])).
  { rewrite !length_app. cbn [length].
    replace (length vs1 + 1 - W)%nat with (length vs1 - (W - 1))%nat by lia.
    replace (length vs2 + 1 - W)%nat with (length vs2 - (W - 1))%nat by lia.
    rewrite !skipn_app, Htail.
    replace (length vs1 - (W - 1) - length vs1)%nat with 0%nat by lia.
    replace (length vs2 - (W - 1) - length vs2)%nat with 0%nat by lia.
    reflexivity. }
  rewrite B.
  assert (S : forall b, Slope.set_y b s1 = Slope.set_y b s2).
  { intro b. destruct H1 as [A1 A2 A3 A4 A5 _ A7], H2 as [B1 B2 B3 B4 B5 _ B7].
    destruct s1, s2; simpl in *; subst. unfold Slope.set_y; simpl.
    f_equal. lia. }
  now rewrite !S.
Qed.

Lemma slope_finite_memory_witness :
  let lf := fun (_ : list (Q * Q)) (_ : list Q) => (NaN, NaN) in
  let nf := fun (_ : list (value * value)) (_ : list value) =>
              @Raise (value * value) LinAlgError in
  let s1 := feed (Slope.should_stop lf nf) (Slope.init (Fin 0) (Fin 1) 3)
              [Fin 9; NaN; Fin 2; Fin 3] in
  let s2 := feed (Slope.should_stop lf nf) (Slope.init (Fin 0) (Fin 1) 3)
              [Fin 2; Fin 3] in
  Slope.should_stop lf nf (Fin 5) s1 = Slope.should_stop lf nf (Fin 5) s2.
Proof.
  intros lf nf s1 s2.
  apply (slope_finite_memory lf nf (Fin 0) (Fin 1) 3%nat s1 s2
           [Fin 9; NaN; Fin 2; Fin 3] [Fin 2; Fin 3] (Fin 5)).
  - apply (history_should_stop lf nf _ _ _ _ [Fin 9; NaN; Fin 2] (Fin 3)).
    apply (history_should_stop lf nf _ _ _ _ [Fin 9; NaN] (Fin 2)).
    apply (history_should_stop lf nf _ _ _ _ [Fin 9] NaN).
    apply (history_should_stop lf nf _ _ _ _ [] (Fin 9)).
    apply history_init.
  - apply (history_should_stop lf nf _ _ _ _ [Fin 2] (Fin 3)).
    apply (history_should_stop lf nf _ _ _ _ [] (Fin 2)).
    apply history_init.
  - lia.
  - simpl. lia.
  - simpl. lia.
  - reflexivity.
Defined.

(** ** Slope criterion: degenerate parameters *)

Section SlopeDefault.

Variable lstsq_float64 : list (Q * Q) -> list Q -> value * value.

Variable lstsq_nonfinite :
  list (value * value) -> list value -> outcome (value * value).

(** One call with unbounded slopes on a finite buffer and a finite value. *)
Lemma slope_unbounded_step (W : nat) (s : Slope.t) (vs : list value)
      (zs : list Q) (q : Q) :
  slope_inv NegInf PosInf W s vs ->
  (1 <= W)%nat ->
  Slope.y s = map Fin zs ->
  snd (Slope.should_stop lstsq_float64 lstsq_nonfinite (Fin q) s) = Return false
  /\ exists zs', Slope.y (fst (Slope.should_stop lstsq_float64 lstsq_nonfinite (Fin q) s))
                 = map Fin zs'.
Proof.
  intros H HW Hz.
  pose proof (slope_inv_y_length _ _ _ _ _ H) as Hy_len.
  destruct H as [Hmn Hmx Ht Hx HA Hy Hp].
  destruct zs as [|z zs]; [rewrite Hz in Hy_len; simpl in Hy_len; lia|].
  cbn [map] in Hz.
  rewrite (slope_should_stop_cons _ _ _ _ _ _ Hz).
  assert (E : map Fin zs ++ [Fin q] = map Fin (zs ++ [q])) by now rewrite map_app.
  rewrite E.
  destruct (Slope.points_seen s <? Z.of_nat (Slope.time s) - 1).
  - split; [reflexivity|]. now exists (zs ++ [q]).
  - assert (Hl : length (zs ++ [q]) = W).
    { rewrite Hz in Hy_len. cbn [length] in Hy_len.
      rewrite length_map in Hy_len. rewrite length_app. simpl. lia. }
    destruct (lstsq_design_returns lstsq_float64 lstsq_nonfinite W _ Hl)
      as [[m c] R].
    rewrite HA, R, Hmn, Hmx. cbn [fst snd].
    split; [|now exists (zs ++ [q])].
    unfold gt. now destruct m.
Qed.

Lemma slope_unbounded_run (W : nat) (qs : list Q) :
  (1 <= W)%nat ->
  forall (s : Slope.t) (vs : list value) (zs : list Q),
    slope_inv NegInf PosInf W s vs ->
    Slope.y s = map Fin zs ->
    results (Slope.should_stop lstsq_float64 lstsq_nonfinite) s (map Fin qs)
    = repeat (Return false) (length qs).
Proof.
  intro HW. induction qs as [|q qs IH]; intros s vs zs H Hz; [reflexivity|].
  cbn [map results length repeat].
  destruct (slope_unbounded_step W s vs zs q H HW Hz) as [R [zs' Hz']].
  rewrite R. f_equal.
  apply (IH _ (vs ++ [Fin q]) zs'); [|exact Hz'].
  now apply slope_inv_should_stop.
Qed.

End SlopeDefault.

(** X12.  Constructed with the default bounds (and a window of at least 1), the
    slope criterion answers false to every finite value: a finite slope is
    neither below minus infinity nor above plus infinity. *)
Theorem slope_default_bounds_never_stop :
  forall lstsq_float64 lstsq_nonfinite (W : nat) (qs : list Q),
    (1 <= W)%nat ->
    results (Slope.should_stop lstsq_float64 lstsq_nonfinite)
      (Slope.init Slope.default_min_thresh Slope.default_max_thresh W)
      (map Fin qs)
    = repeat (Return false) (length qs).
Proof.
  intros lf nf W qs HW.
  apply (slope_unbounded_run lf nf W qs HW _ [] (repeat 0%Q W)).
  - apply (history_inv lf nf). apply history_init.
  - simpl. unfold Np.zeros. clear. induction W as [|n IH]; simpl; congruence.
Qed.

Lemma slope_default_bounds_never_stop_witness :
  results (Slope.should_stop (fun _ _ => (NaN, NaN)) (fun _ _ => Raise LinAlgError))
    (Slope.init Slope.default_min_thresh Slope.default_max_thresh
       Slope.default_time)
    (map Fin [1; 100; -7; 3 # 4; 0; 0; 52]%Q)
  = repeat (Return false) 7.
Proof.
  apply (slope_default_bounds_never_stop (fun _ _ => (NaN, NaN))
           (fun _ _ => Raise LinAlgError)
           Slope.default_time [1; 100; -7; 3 # 4; 0; 0; 52]%Q).
  unfold Slope.default_time. lia.
Defined.

Lemma lstsq_min_norm_single_row (q : Q) :
  (fst (Np.lstsq_min_norm (design 1) [q]) == 0)%Q.
Proof.
  unfold Np.lstsq_min_norm, design, time_index.
  cbn [seq map combine Np.sumq fold_right fst snd].
  set (tr := (_ + _)%Q) at 1.
  assert (Htr : Qeq_bool tr 0 = false) by reflexivity.
  rewrite Htr. cbn [fst]. rewrite Qred_correct. unfold tr.
  field.
Qed.

(** X13.  With a window of 1 there is no warm-up and the single point fixes no
    slope: [lstsq] returns the minimum-norm solution, whose slope is 0, so
    every call on a finite value compares 0 with the bounds, whatever the
    value is. *)
Theorem slope_window_of_one :
  forall lstsq_float64 lstsq_nonfinite (mn mx : value) (s : Slope.t) (vs : list value) (q : Q),
    history lstsq_float64 lstsq_nonfinite mn mx 1 s vs ->
    Slope.should_stop lstsq_float64 lstsq_nonfinite (Fin q) s
    = (Slope.set_y [Fin q] s, Return (lt (Fin 0) mn || gt (Fin 0) mx)).
Proof.
  intros lf nf mn mx s vs q H. apply history_inv in H.
  assert (Hwin : skipn (length (vs ++ [Fin q]) - 1) (vs ++ [Fin q])
                 = map Fin [q]).
  { rewrite length_app. cbn [length].
    replace (length vs + 1 - 1)%nat with (length vs) by lia.
    rewrite skipn_app, skipn_all, Nat.sub_diag. reflexivity. }
  rewrite (slope_call_warm lf nf mn mx 1%nat s vs (Fin q) H)
    by (try rewrite length_app; simpl; lia).
  cbv zeta. rewrite Hwin, lstsq_design_single_row. cbn [fst map].
  pose proof (lstsq_min_norm_single_row q) as E.
  unfold gt.
  destruct (lt_Fin_Qeq _ _ mn E) as [-> _].
  destruct (lt_Fin_Qeq _ _ mx E) as [_ ->].
  reflexivity.
Qed.

Lemma slope_window_of_one_witness :
  let lf := fun (_ : list (Q * Q)) (_ : list Q) => (NaN, NaN) in
  let nf := fun (_ : list (value * value)) (_ : list value) =>
              @Raise (value * value) LinAlgError in
  let s := fst (Slope.should_stop lf nf (Fin 3) (Slope.init (Fin 1) PosInf 1)) in
  Slope.should_stop lf nf (Fin 1000) s
  = (Slope.set_y [Fin 1000] s, Return (lt (Fin 0) (Fin 1) || gt (Fin 0) PosInf)).
Proof.
  intros lf nf s.
  apply (slope_window_of_one lf nf (Fin 1) PosInf s [Fin 3] 1000).
  apply (history_should_stop lf nf _ _ _ _ [] (Fin 3)).
  apply history_init.
Defined.
